(** * The user profile page (src/app/(pages)/user/profile/page.tsx)

    A shallow embedding of the [Profile] component: the values the page
    receives from the backend, the [fetchUserData] effect that runs when the
    view is activated, and the element tree the component returns. *)

From Stdlib Require Import ZArith SpecFloat DecimalString.
From stdpp Require Import gmap strings list.

Local Open Scope string_scope.

(** ** JavaScript values

    [response.data] is whatever the JSON body parses to, and every field of
    [ProfileData] is indexed dynamically ([[key: string]: any]), so the values
    are untyped.  A number is an IEEE double; [spec_float] has its zeros of
    both signs, its infinities and NaN. *)

#[local] Unset Elimination Schemes.
Inductive JsVal : Type :=
| JUndefined
| JNull
| JBool (b : bool)
| JNum (x : spec_float)
| JStr (s : string)
| JArr (items : list JsVal)
| JObj (fields : gmap string JsVal).
#[local] Set Elimination Schemes.

(** ToBoolean: what [!v], [v || w] and [v ? a : b] test. *)
Definition truthy (v : JsVal) : bool :=
  match v with
  | JUndefined | JNull => false
  | JBool b => b
  | JNum (S754_zero _) | JNum S754_nan => false
  | JNum _ => true
  | JStr s => negb (String.eqb s "")
  | JArr _ | JObj _ => true
  end.

(** [a || b] *)
Definition js_or (a b : JsVal) : JsVal := if truthy a then a else b.

(** Property access [v[k]] and [v.k].  On [null] and [undefined] it throws a
    TypeError ([None]).  On an object it reads the own property, [undefined]
    when there is none.  A string, number, boolean or array has none of the
    properties this page reads (the field keys of the display groups and
    [message]; no built-in property of those values or of [Object.prototype]
    has one of these names), so the access gives [undefined]. *)
Definition js_get (v : JsVal) (k : string) : option JsVal :=
  match v with
  | JUndefined | JNull => None
  | JObj fields => Some (default JUndefined (fields !! k))
  | JBool _ | JNum _ | JStr _ | JArr _ => Some JUndefined
  end.

(** Optional chaining [v?.k]: [undefined] instead of the TypeError. *)
Definition js_get_opt (v : JsVal) (k : string) : JsVal :=
  default JUndefined (js_get v k).

(** ** The host of the component

    What the page reads from outside: the cookie jar ([Cookies.get]), the
    backend behind [axios.get], and the engine's Number::toString, which the
    template literal of the header applies to a numeric name. *)

Record HttpResponse := { status : Z; data : JsVal }.

(** The error [axios.get] rejects with: [err.response] is the response of a
    request the server answered with a failure status, and is undefined when
    no response arrived. *)
Record AxiosError := { response : option HttpResponse }.

Inductive AxiosOutcome :=
| Resolved (r : HttpResponse)
| Rejected (err : AxiosError).

Record Host := {
  cookies : gmap string string;
  backend : string -> string -> AxiosOutcome;   (* url, Authorization header *)
  Number_toString : spec_float -> string
}.

(** ** Effects

    The component's two state cells and, in order, what it has done to the
    outside: navigations, requests and notifications. *)

Inductive Event :=
| RouterPush (path : string)
| HttpGet (url authorization : string)
| ToastError (message : JsVal).

Record World := { profileData : JsVal; loading : bool; log : list Event }.

Definition M (A : Type) : Type := World -> A * World.

#[global] Instance M_ret : MRet M := fun A a w => (a, w).
#[global] Instance M_bind : MBind M :=
  fun A B f c w => let '(a, w') := c w in f a w'.

Definition emit (e : Event) : M unit :=
  fun w => (tt, {| profileData := profileData w; loading := loading w;
                   log := log w ++ [e] |}).

Definition setProfileData (v : JsVal) : M unit :=
  fun w => (tt, {| profileData := v; loading := loading w; log := log w |}).

Definition setLoading (b : bool) : M unit :=
  fun w => (tt, {| profileData := profileData w; loading := b; log := log w |}).

Definition router_push (path : string) : M unit := emit (RouterPush path).

(** [toast.error(message)] displays the notification and returns its
    identifier (a string or a number), kept here as the call it comes from. *)
Inductive ToastId := ToastIdOf (message : JsVal).

Definition toast_error (message : JsVal) : M ToastId :=
  emit (ToastError message);; mret (ToastIdOf message).

Definition axios_get (h : Host) (url authorization : string) : M AxiosOutcome :=
  emit (HttpGet url authorization);; mret (backend h url authorization).

(** [Cookies.get(name)]: the cookie's value, or undefined. *)
Definition Cookies_get (h : Host) (name : string) : JsVal :=
  match cookies h !! name with
  | Some v => JStr v
  | None => JUndefined
  end.

(** [`Bearer ${token}`], for the string [token] is once it passed [!token]. *)
Definition bearer (token : JsVal) : string :=
  match token with
  | JStr t => "Bearer " +:+ t
  | _ => "Bearer "
  end.

(** [err.response?.status === 401] *)
Definition status_is_401 (err : AxiosError) : bool :=
  match response err with
  | Some r => Z.eqb (status r) 401
  | None => false
  end.

(** [err.response?.data?.message] *)
Definition error_message (err : AxiosError) : JsVal :=
  match response err with
  | Some r => js_get_opt (data r) "message"
  | None => JUndefined
  end.

(** [fetchUserData] (lines 62-89).  The [try] body is the [match]; [return]
    in the missing-token branch leaves the body, and the [finally] block runs
    after every branch. *)
Definition fetchUserData (h : Host) : M unit :=
  setLoading true;;
  (let token := Cookies_get h "token" in
   if negb (truthy token) then
     router_push "/login"
   else
     outcome ← axios_get h "/api/auth/signup" (bearer token);
     match outcome with
     | Resolved r => setProfileData (data r)
     | Rejected err =>
         if status_is_401 err then
           toast_error (JStr "Session is over please login again.");;
           router_push "/login"
         else
           toast_error (js_or (error_message err) (JStr "Data is not found"));;
           mret tt
     end);;
  setLoading false.

(** ** Element trees

    What a JSX expression evaluates to.  A child is a value ([{expr}], or JSX
    text, which is a string), an array of children (what [.map] gives) or an
    element with its type, [className], [key] and children. *)

#[local] Unset Elimination Schemes.
Inductive Node : Type :=
| Val (v : JsVal)
| Arr (items : list Node)
| Elem (tag className : string) (key : option string) (children : list Node).
#[local] Set Elimination Schemes.

(** What the component function returns: an element, or, on line 105, the
    identifier [toast.error] returned.  [Thrown] is a TypeError raised while
    the tree is built: the function returns nothing. *)
Inductive Returned :=
| Element (e : Node)
| Toast (id : ToastId)
| Thrown.

(** ToString, as a template literal applies it; [None] is the TypeError it
    throws.  An object is converted by its [toString] method: a parsed JSON
    object inherits the one of [Object.prototype], which gives
    ["[object Object]"], unless it has an own [toString] property; that
    property holds a JSON value, which is not callable, and the [valueOf] the
    conversion then falls back to returns the object itself, so the
    conversion throws.  An array joins the conversions of its items with
    commas, [null] and [undefined] items giving the empty string, and throws
    when an item does. *)
Fixpoint ToString (h : Host) (v : JsVal) : option string :=
  match v with
  | JUndefined => Some "undefined"
  | JNull => Some "null"
  | JBool true => Some "true"
  | JBool false => Some "false"
  | JNum x => Some (Number_toString h x)
  | JStr s => Some s
  | JArr items =>
      String.concat "," <$>
        (fix each (l : list JsVal) : option (list string) :=
           match l with
           | [] => Some []
           | item :: rest =>
               match match item with
                     | JUndefined | JNull => Some ""
                     | _ => ToString h item
                     end with
               | Some s =>
                   match each rest with
                   | Some ss => Some (s :: ss)
                   | None => None
                   end
               | None => None
               end
           end) items
  | JObj fields =>
      match fields !! "toString" with
      | Some _ => None
      | None => Some "[object Object]"
      end
  end.

(** The values a template literal cannot convert: an object with an own
    [toString] property, or an array that holds such a value. *)
Fixpoint unconvertible (v : JsVal) : bool :=
  match v with
  | JObj fields => bool_decide (is_Some (fields !! "toString"))
  | JArr items => List.existsb unconvertible items
  | _ => false
  end.

(** One entry of the literal arrays the cards map over. *)
Record Field := { fkey : string; flabel : string }.

Definition row_class : string :=
  "flex flex-col md:flex-row items-start md:items-center justify-between gap-4 py-2".
Definition label_class : string :=
  "text-blue-700 w-full md:w-1/3 font-semibold text-lg".
Definition card_class : string :=
  "mb-10 shadow-lg rounded-xl border border-gray-200 hover:shadow-xl transition-shadow duration-300".

Section View.
(** [profileData[k]] for the record being displayed. *)
Variable profile : string -> JsVal.

(** The row every text card maps its fields to (lines 135-147, 164-176,
    197-209, 273-285, 307-319). *)
Definition text_row (field : Field) : Node :=
  Elem "div" row_class (Some (fkey field))
    [ Elem "Label" label_class None [Val (JStr (flabel field))];
      Elem "div" "w-full md:w-2/3" None
        [ Elem "span"
            "text-gray-800 bg-gray-100 px-3 py-1 rounded-md text-base font-medium"
            None
            [Val (js_or (profile (fkey field)) (JStr "N/A"))] ] ].

(** The row of the Documents card (lines 227-243). *)
Definition document_row (field : Field) : Node :=
  Elem "div" row_class (Some (fkey field))
    [ Elem "Label" label_class None [Val (JStr (flabel field))];
      Elem "div" "w-full md:w-2/3" None
        [ Elem "span"
            ("text-gray-800 px-3 py-1 rounded-md text-base font-medium "
             +:+ (if truthy (profile (fkey field))
                  then "bg-green-100" else "bg-red-100"))
            None
            [Val (if truthy (profile (fkey field))
                  then JStr "Uploaded" else JStr "No file uploaded")] ] ].

(** Lines 245-254. *)
Definition aadhaar_row : Node :=
  Elem "div" row_class None
    [ Elem "Label" label_class None [Val (JStr "Aadhaar No.")];
      Elem "div" "w-full md:w-2/3" None
        [ Elem "span"
            "text-gray-800 bg-yellow-100 px-3 py-1 rounded-md text-base font-medium"
            None
            [Val (js_or (profile "aadhaarNo") (JStr "N/A"))] ] ].

(** Lines 321-336 and 348-363, which differ in the label and the field. *)
Definition agreement_row (label key : string) : Node :=
  Elem "div" row_class None
    [ Elem "Label" label_class None [Val (JStr label)];
      Elem "div" "w-full md:w-2/3" None
        [ Elem "span"
            ("text-gray-800 px-3 py-1 rounded-md text-base font-medium "
             +:+ (if truthy (profile key) then "bg-green-100" else "bg-red-100"))
            None
            [Val (if truthy (profile key) then JStr "Yes" else JStr "No")] ] ].

Definition card (title : string) (content : list Node) : Node :=
  Elem "Card" card_class None
    [ Elem "CardHeader" "bg-blue-50 rounded-t-xl" None
        [ Elem "CardTitle" "text-2xl md:text-3xl font-bold text-blue-800" None
            [Val (JStr title)] ];
      Elem "CardContent" "space-y-5 p-6" None content ].

(** The tree of lines 108-368, once the child of the header is evaluated. *)
Definition profile_tree (header : JsVal) : Node :=
  Elem "div"
    "min-h-screen bg-gradient-to-br from-blue-100 to-gray-200 p-6 md:p-10" None
    [ Elem "div" "max-w-5xl mx-auto" None
      [ Elem "h1"
          "text-4xl md:text-5xl font-extrabold text-center mb-10 text-blue-900 capitalize tracking-tight"
          None
          [Val header];
        card "Personal Details"
          [ Arr (List.map text_row
              [ {| fkey := "name"; flabel := "Full Name" |};
                {| fkey := "email"; flabel := "Email" |};
                {| fkey := "dob"; flabel := "Date of Birth" |};
                {| fkey := "phone"; flabel := "Phone" |};
                {| fkey := "area"; flabel := "Area" |};
                {| fkey := "landmark"; flabel := "Landmark" |};
                {| fkey := "address"; flabel := "Address" |};
                {| fkey := "sonOf"; flabel := "Son/Daughter Of" |};
                {| fkey := "resident"; flabel := "Resident Of" |} ]) ];
        card "Exam Preferences"
          [ Arr (List.map text_row
              [ {| fkey := "examCityPreference1"; flabel := "Exam City Preference 1" |};
                {| fkey := "examCityPreference2"; flabel := "Exam City Preference 2" |} ]) ];
        card "Experience"
          [ Arr (List.map text_row
              [ {| fkey := "previousCdaExperience"; flabel := "Previous CDAC Experience" |};
                {| fkey := "cdaExperienceYears"; flabel := "Years of Experience" |};
                {| fkey := "cdaExperienceRole"; flabel := "Role in CDA" |} ]) ];
        card "Documents"
          [ Arr (List.map document_row
              [ {| fkey := "photo"; flabel := "Photo" |};
                {| fkey := "signature"; flabel := "Signature" |};
                {| fkey := "thumbprint"; flabel := "Thumbprint" |} ]);
            aadhaar_row ];
        card "Bank Details"
          [ Arr (List.map text_row
              [ {| fkey := "accountHolderName"; flabel := "Account Holder Name" |};
                {| fkey := "bankName"; flabel := "Bank Name" |};
                {| fkey := "ifsc"; flabel := "IFSC Code" |};
                {| fkey := "branch"; flabel := "Branch" |};
                {| fkey := "bankAccountNo"; flabel := "Bank Account No." |} ]) ];
        card "Health Declaration"
          [ Arr (List.map text_row
              [ {| fkey := "fever"; flabel := "Fever" |};
                {| fkey := "cough"; flabel := "Cough" |};
                {| fkey := "breathlessness"; flabel := "Breathlessness" |};
                {| fkey := "soreThroat"; flabel := "Sore Throat" |};
                {| fkey := "otherSymptoms"; flabel := "Other Symptoms" |};
                {| fkey := "otherSymptomsDetails"; flabel := "Other Symptoms Details" |};
                {| fkey := "closeContact"; flabel := "Close Contact with COVID Case" |} ]);
            agreement_row "COVID Declaration Agreement" "covidDeclarationAgreement" ];
        card "Agreements"
          [ agreement_row "Penalty Clause Agreement" "penaltyClauseAgreement" ] ] ].

(** The child of the header (line 113).  It is evaluated before any card is
    built, and the template literal may throw ([None]). *)
Definition header_child (h : Host) : option JsVal :=
  if truthy (profile "name")
  then JStr <$> ToString h (profile "name")
  else Some (JStr "User Profile").

(** Evaluating lines 108-368: the tree, or [None] when the header throws. *)
Definition profile_view (h : Host) : option Node :=
  profile_tree <$> header_child h.
End View.

(** What the component returns for the outcome of building the page. *)
Definition returned_of (page : option Node) : Returned :=
  match page with
  | Some root => Element root
  | None => Thrown
  end.

(** Lines 97-100. *)
Definition loading_view : Node :=
  Elem "div" "min-h-screen flex items-center justify-center bg-gray-100" None
    [ Elem "Loader2" "h-8 w-8 animate-spin text-blue-600" None [];
      Elem "p" "ml-2" None [Val (JStr "Please wait a moment data is loading.")] ].

(** The body of the component after its hooks (lines 95-368): one render,
    from the current state. *)
Definition Profile (h : Host) : M Returned :=
  fun w =>
    if loading w then (Element loading_view, w)
    else if negb (truthy (profileData w)) then
      (id ← toast_error (JStr "Profile is not found."); mret (Toast id)) w
    else
      match js_get (profileData w) "name" with
      | None => (Thrown, w)
      | Some _ => (returned_of (profile_view (js_get_opt (profileData w)) h), w)
      end.

(** A view activation: [useState(null)] and [useState(true)], the first
    render, the effect that calls [fetchUserData], and the render that
    follows its state changes.  The result is what the two renders returned. *)
Definition initial : World :=
  {| profileData := JNull; loading := true; log := [] |}.

Definition activate (h : Host) : M (list Returned) :=
  first ← Profile h;
  fetchUserData h;;
  second ← Profile h;
  mret [first; second].

(** ** Reading an element tree

    What a reader of the page sees is found by walking the returned tree:
    arrays of children are flattened, as React does when it renders them. *)

Fixpoint flatten (n : Node) : list Node :=
  match n with
  | Arr items => List.flat_map flatten items
  | _ => [n]
  end.

Definition elem_children (n : Node) : list Node :=
  match n with
  | Elem _ _ _ children => List.flat_map flatten children
  | _ => []
  end.

Definition elem_class (n : Node) : string :=
  match n with
  | Elem _ className _ _ => className
  | _ => ""
  end.

Definition has_tag (t : string) (n : Node) : bool :=
  match n with
  | Elem t' _ _ _ => String.eqb t t'
  | _ => false
  end.

(** The elements reached from [roots] by going down through children with
    the tags of [path], in order. *)
Definition select (path : list string) (roots : list Node) : list Node :=
  List.fold_left
    (fun nodes t => List.filter (has_tag t) (List.flat_map elem_children nodes))
    path roots.

(** One displayed row: its label, the class of the value's [span] and the
    value shown in it. *)
Record Shown := {
  shown_label : list Node;
  shown_class : list string;
  shown_content : list Node
}.

Definition shown_of_row (row : Node) : Shown :=
  {| shown_label := List.flat_map elem_children (select ["Label"] [row]);
     shown_class := List.map elem_class (select ["div"; "span"] [row]);
     shown_content := List.flat_map elem_children (select ["div"; "span"] [row]) |}.

Definition card_title (c : Node) : list Node :=
  List.flat_map elem_children (select ["CardHeader"; "CardTitle"] [c]).

Definition card_rows (c : Node) : list Shown :=
  List.map shown_of_row (select ["CardContent"; "div"] [c]).

(** The display groups of a rendered page, in document order. *)
Definition groups_of (root : Node) : list (list Node * list Shown) :=
  List.map (fun c => (card_title c, card_rows c)) (select ["div"; "Card"] [root]).

(** The page header. *)
Definition header_of (root : Node) : list Node :=
  List.flat_map elem_children (select ["div"; "h1"] [root]).

(** [nodes] is the single text [s]. *)
Definition is_text (s : string) (nodes : list Node) : bool :=
  match nodes with
  | [Val (JStr s')] => String.eqb s s'
  | _ => false
  end.

(** The rows shown under [label] in the group titled [title]. *)
Definition shown_in (root : Node) (title label : string) : list Shown :=
  List.flat_map
    (fun g => if is_text title (fst g)
              then List.filter (fun s => is_text label (shown_label s)) (snd g)
              else [])
    (groups_of root).

(** ** The display groups, as a table

    The seven groups in order, each with its rows: the label, the field key
    and how the field is displayed. *)

Inductive FieldKind :=
| TextField        (* value, or the placeholder *)
| HighlightedText  (* the same, highlighted: the identity number *)
| PresenceFlag     (* Uploaded / No file uploaded *)
| AgreementFlag.   (* Yes / No *)

Definition display_groups : list (string * list (string * string * FieldKind)) :=
  [ ("Personal Details",
      [ ("Full Name", "name", TextField);
        ("Email", "email", TextField);
        ("Date of Birth", "dob", TextField);
        ("Phone", "phone", TextField);
        ("Area", "area", TextField);
        ("Landmark", "landmark", TextField);
        ("Address", "address", TextField);
        ("Son/Daughter Of", "sonOf", TextField);
        ("Resident Of", "resident", TextField) ]);
    ("Exam Preferences",
      [ ("Exam City Preference 1", "examCityPreference1", TextField);
        ("Exam City Preference 2", "examCityPreference2", TextField) ]);
    ("Experience",
      [ ("Previous CDAC Experience", "previousCdaExperience", TextField);
        ("Years of Experience", "cdaExperienceYears", TextField);
        ("Role in CDA", "cdaExperienceRole", TextField) ]);
    ("Documents",
      [ ("Photo", "photo", PresenceFlag);
        ("Signature", "signature", PresenceFlag);
        ("Thumbprint", "thumbprint", PresenceFlag);
        ("Aadhaar No.", "aadhaarNo", HighlightedText) ]);
    ("Bank Details",
      [ ("Account Holder Name", "accountHolderName", TextField);
        ("Bank Name", "bankName", TextField);
        ("IFSC Code", "ifsc", TextField);
        ("Branch", "branch", TextField);
        ("Bank Account No.", "bankAccountNo", TextField) ]);
    ("Health Declaration",
      [ ("Fever", "fever", TextField);
        ("Cough", "cough", TextField);
        ("Breathlessness", "breathlessness", TextField);
        ("Sore Throat", "soreThroat", TextField);
        ("Other Symptoms", "otherSymptoms", TextField);
        ("Other Symptoms Details", "otherSymptomsDetails", TextField);
        ("Close Contact with COVID Case", "closeContact", TextField);
        ("COVID Declaration Agreement", "covidDeclarationAgreement", AgreementFlag) ]);
    ("Agreements",
      [ ("Penalty Clause Agreement", "penaltyClauseAgreement", AgreementFlag) ]) ].

Definition is_text_kind (k : FieldKind) : bool :=
  match k with
  | TextField | HighlightedText => true
  | PresenceFlag | AgreementFlag => false
  end.

(** Every field key a display group names. *)
Definition fixed_keys : list string :=
  List.flat_map (fun g => List.map (fun f => snd (fst f)) (snd g)) display_groups.

(** The keys of the text fields. *)
Definition text_keys : list string :=
  List.flat_map
    (fun g => List.map (fun f => snd (fst f))
                (List.filter (fun f => is_text_kind (snd f)) (snd g)))
    display_groups.


(** What a row of the table displays for the record read through [profile]:
    a text field its value, or the placeholder for a falsy one; a flag one of
    its two texts, on green or red. *)
Definition flag_class (on : bool) : string :=
  if on then "text-gray-800 px-3 py-1 rounded-md text-base font-medium bg-green-100"
  else "text-gray-800 px-3 py-1 rounded-md text-base font-medium bg-red-100".

Definition table_row (profile : string -> JsVal)
    (f : string * string * FieldKind) : Shown :=
  let '(label, key, kind) := f in
  let v := profile key in
  match kind with
  | TextField =>
      {| shown_label := [Val (JStr label)];
         shown_class :=
           ["text-gray-800 bg-gray-100 px-3 py-1 rounded-md text-base font-medium"];
         shown_content := [Val (if truthy v then v else JStr "N/A")] |}
  | HighlightedText =>
      {| shown_label := [Val (JStr label)];
         shown_class :=
           ["text-gray-800 bg-yellow-100 px-3 py-1 rounded-md text-base font-medium"];
         shown_content := [Val (if truthy v then v else JStr "N/A")] |}
  | PresenceFlag =>
      {| shown_label := [Val (JStr label)];
         shown_class := [flag_class (truthy v)];
         shown_content :=
           [Val (JStr (if truthy v then "Uploaded" else "No file uploaded"))] |}
  | AgreementFlag =>
      {| shown_label := [Val (JStr label)];
         shown_class := [flag_class (truthy v)];
         shown_content := [Val (JStr (if truthy v then "Yes" else "No"))] |}
  end.

Definition table_groups (profile : string -> JsVal)
    : list (list Node * list Shown) :=
  List.map (fun g => ([Val (JStr (fst g))], List.map (table_row profile) (snd g)))
    display_groups.

(** A record's field, [undefined] when absent. *)
Definition field (r : gmap string JsVal) (k : string) : JsVal :=
  default JUndefined (r !! k).

(** The render of a loaded page whose state holds the record [r]. *)
Definition render_record (h : Host) (r : gmap string JsVal) : Returned :=
  fst (Profile h {| profileData := JObj r; loading := false; log := [] |}).


(** The message field of the body of a failure response, when the body is
    an object that has one. *)
Definition backend_message (err : AxiosError) : option JsVal :=
  match response err with
  | Some {| data := JObj fields |} => fields !! "message"
  | _ => None
  end.

(** The notification text of a failed fetch as the specification words it:
    the backend's message field when present, a fallback otherwise. *)
Definition claimed_failure_text (err : AxiosError) : JsVal :=
  match backend_message err with
  | Some m => m
  | None => JStr "Data is not found"
  end.

(** The notification text of a failed fetch as the code computes it: the
    message field when present and truthy, the fallback otherwise. *)
Definition failure_text (err : AxiosError) : JsVal :=
  match backend_message err with
  | Some m => if truthy m then m else JStr "Data is not found"
  | None => JStr "Data is not found"
  end.

(** The notifications, requests and navigations in a log. *)
Definition notifications (l : list Event) : list JsVal :=
  List.flat_map (fun e => match e with ToastError m => [m] | _ => [] end) l.
Definition requests (l : list Event) : list (string * string) :=
  List.flat_map (fun e => match e with HttpGet u a => [(u, a)] | _ => [] end) l.
Definition navigations (l : list Event) : list string :=
  List.flat_map (fun e => match e with RouterPush p => [p] | _ => [] end) l.

(** ** Number::toString

    The conversion of a number to a string, radix 10, as ECMAScript
    specifies it: the digits are those of the shortest decimal that rounds
    to the number, the closest one to it among the shortest, and they are
    laid out as an integer, as a fraction, or with an exponent when the
    number is at least 1e21 or below 1e-6.  A finite [spec_float] stands for
    [m * 2^e]; the numbers of JavaScript are those of binary64, with at most
    53 significant bits and an exponent between -1074 and 971. *)

Definition decimal_digits (n : Z) : string :=
  NilZero.string_of_uint (N.to_uint (Z.to_N n)).

Definition zeros (n : Z) : string :=
  String.concat "" (List.repeat "0" (Z.to_nat n)).

(** The mantissa and the exponent of [m * 2^e] as a binary64 number: 53
    bits, or fewer at the least exponent. *)
Definition binary64_parts (m : positive) (e : Z) : Z * Z :=
  let ec := Z.max (Z.log2 (Zpos m) + e - 52) (-1074) in
  (if (e - ec >=? 0)%Z then Z.shiftl (Zpos m) (e - ec)
   else Z.shiftr (Zpos m) (ec - e), ec).

(** A decimal [s * 10^(n-k)] of [k] digits and its distance to the number. *)
Record Candidate := { cand_s : Z; cand_n : Z; cand_dist : Z }.

Definition better (a b : Candidate) : Candidate :=
  if (cand_dist b <? cand_dist a)%Z then b
  else if (cand_dist b =? cand_dist a)%Z && Z.even (cand_s b)
          && negb (Z.even (cand_s a)) then b
  else a.

Definition pick (cs : list Candidate) : option Candidate :=
  match cs with
  | [] => None
  | c :: cs' => Some (List.fold_left better cs' c)
  end.

Section Digits.
(** The number and the ends of the interval of the reals that round to it,
    on a common integer scale; [base] is [10^n0] on that scale, and the
    interval is closed when the mantissa is even. *)
Variables (XS LOS HIS base : Z) (closed : bool) (n0 : Z).

Definition inside (v : Z) : bool :=
  if closed then (LOS <=? v)%Z && (v <=? HIS)%Z
  else (LOS <? v)%Z && (v <? HIS)%Z.

(** The decimals of [k] digits that round to the number. *)
Definition candidates (k : Z) : list Candidate :=
  List.flat_map
    (fun n =>
       let unit := (base * 10 ^ (n - k - n0))%Z in
       let s0 := (XS / unit)%Z in
       List.flat_map
         (fun s =>
            if (10 ^ (k - 1) <=? s)%Z && (s <? 10 ^ k)%Z && inside (s * unit)
            then [{| cand_s := s; cand_n := n;
                     cand_dist := Z.abs (s * unit - XS) |}]
            else [])
         [s0; (s0 + 1)%Z])
    [(n0 + 19)%Z; (n0 + 20)%Z; (n0 + 21)%Z; (n0 + 22)%Z; (n0 + 23)%Z].

(** The least [k] that has a candidate; 17 digits always suffice. *)
Fixpoint shortest (fuel : nat) (k : Z) : Z * Z * Z :=
  match fuel with
  | O => (0%Z, k, 0%Z)
  | S fuel' =>
      match pick (candidates k) with
      | Some c => (cand_s c, k, cand_n c)
      | None => shortest fuel' (k + 1)%Z
      end
  end.
End Digits.

(** The integers [s], [k] and [n] of the specification: [k] digits [s],
    the number being [s * 10^(n-k)] up to rounding. *)
Definition Number_digits (m : positive) (e : Z) : Z * Z * Z :=
  let '(mc, ec) := binary64_parts m e in
  let q := (ec - 2)%Z in
  let n0 := ((Z.log2 mc + ec) * 30103 / 100000 - 20)%Z in
  let a := Z.max (- q) 0 in
  let b := Z.max (- n0) 0 in
  let ten_b := (10 ^ b)%Z in
  let scale v := (Z.shiftl v (q + a) * ten_b)%Z in
  shortest (scale (4 * mc)%Z)
    (scale (4 * mc - (if (mc =? 2 ^ 52)%Z && (ec >? -1074)%Z then 1 else 2))%Z)
    (scale (4 * mc + 2)%Z)
    (Z.shiftl (10 ^ (n0 + b)) a)
    (Z.even mc) n0 17 1%Z.

Definition format_digits (skn : Z * Z * Z) : string :=
  let '(s, k, n) := skn in
  let ds := decimal_digits s in
  if (k <=? n)%Z && (n <=? 21)%Z then ds +:+ zeros (n - k)
  else if (0 <? n)%Z && (n <=? 21)%Z then
    String.substring 0 (Z.to_nat n) ds +:+ "."
    +:+ String.substring (Z.to_nat n) (Z.to_nat (k - n)) ds
  else if (-6 <? n)%Z && (n <=? 0)%Z then "0." +:+ zeros (- n) +:+ ds
  else
    let ex := (if (n - 1 <? 0)%Z then "-" else "+")
              +:+ decimal_digits (Z.abs (n - 1)) in
    if (k =? 1)%Z then ds +:+ "e" +:+ ex
    else String.substring 0 1 ds +:+ "."
         +:+ String.substring 1 (Z.to_nat (k - 1)) ds +:+ "e" +:+ ex.

Definition ecma_Number_toString (x : spec_float) : string :=
  match x with
  | S754_nan => "NaN"
  | S754_zero _ => "0"
  | S754_infinity false => "Infinity"
  | S754_infinity true => "-Infinity"
  | S754_finite sgn m e =>
      (if sgn then "-" else "") +:+ format_digits (Number_digits m e)
  end.

(** ** Hosts and records for the examples *)

Definition example_host (token : option string) (answer : AxiosOutcome) : Host :=
  {| cookies := match token with
                | Some t => {[ "token" := t ]}
                | None => ∅
                end;
     backend := fun _ _ => answer;
     Number_toString := ecma_Number_toString |}.

Definition full_record : gmap string JsVal :=
  list_to_map
    [ ("name", JStr "Asha Rao"); ("email", JStr "asha@example.org");
      ("dob", JStr "1990-04-12"); ("phone", JStr "9000000000");
      ("area", JStr "Sector 4"); ("landmark", JStr "Clock tower");
      ("address", JStr "12 Lake Road"); ("sonOf", JStr "K. Rao");
      ("resident", JStr "Pune");
      ("examCityPreference1", JStr "Pune"); ("examCityPreference2", JStr "Mumbai");
      ("previousCdaExperience", JStr "Yes"); ("cdaExperienceYears", JStr "2");
      ("cdaExperienceRole", JStr "Invigilator");
      ("photo", JStr "photo.png"); ("signature", JStr "sign.png");
      ("thumbprint", JStr "thumb.png"); ("aadhaarNo", JStr "123412341234");
      ("accountHolderName", JStr "Asha Rao"); ("bankName", JStr "State Bank");
      ("ifsc", JStr "SBIN0000001"); ("branch", JStr "Pune Main");
      ("bankAccountNo", JStr "00012345678");
      ("fever", JStr "No"); ("cough", JStr "No"); ("breathlessness", JStr "No");
      ("soreThroat", JStr "No"); ("otherSymptoms", JStr "No");
      ("otherSymptomsDetails", JStr "None"); ("closeContact", JStr "No");
      ("covidDeclarationAgreement", JBool true);
      ("penaltyClauseAgreement", JBool false);
      ("currentDate", JStr "2024-01-01") ].

(** [full_record] without its email, with an empty phone, a numeric 0 and
    no signature file. *)
Definition sparse_record : gmap string JsVal :=
  <["signature" := JNull]>
    (<["cdaExperienceYears" := JNum (S754_zero false)]>
       (<["phone" := JStr ""]> (delete "email" full_record))).

(** [full_record] with a name the header cannot convert: an object with an
    own [toString] property. *)
Definition unconvertible_name : JsVal := JObj {[ "toString" := JNull ]}.
Definition crashing_record : gmap string JsVal :=
  <["name" := unconvertible_name]> full_record.


(** A failure response whose body carries an empty message. *)
Definition empty_message_error : AxiosError :=
  {| response :=
       Some {| status := 500; data := JObj {[ "message" := JStr "" ]} |} |}.

Definition server_error : AxiosError :=
  {| response :=
       Some {| status := 500;
               data := JObj {[ "message" := JStr "Server error" ]} |} |}.

Definition expired_error : AxiosError :=
  {| response := Some {| status := 401; data := JNull |} |}.

Definition network_error : AxiosError := {| response := None |}.

Definition host_without_token : Host :=
  example_host None (Resolved {| status := 200; data := JObj full_record |}).
Definition host_with_profile : Host :=
  example_host (Some "secret")
    (Resolved {| status := 200; data := JObj full_record |}).
Definition host_expired : Host :=
  example_host (Some "secret") (Rejected expired_error).
Definition host_server_error : Host :=
  example_host (Some "secret") (Rejected server_error).
Definition host_empty_message : Host :=
  example_host (Some "secret") (Rejected empty_message_error).
Definition host_offline : Host :=
  example_host (Some "secret") (Rejected network_error).
Definition host_crashing : Host :=
  example_host (Some "secret")
    (Resolved {| status := 200; data := JObj crashing_record |}).

(** ** Reading a fetch off the host

    The body [fetchUserData] stores: the body of the resolved response to the
    request made with the stored credential.  There is none when the
    credential is missing or empty (no request is made) or when the request
    is rejected. *)
Definition fetched (h : Host) : option JsVal :=
  match cookies h !! "token" with
  | Some t =>
      if String.eqb t "" then None
      else match backend h "/api/auth/signup" ("Bearer " +:+ t) with
           | Resolved r => Some (data r)
           | Rejected _ => None
           end
  | None => None
  end.

(** The session is unusable: no credential, an empty one, or one the backend
    answers with status 401. *)
Definition session_invalid (h : Host) : bool :=
  match cookies h !! "token" with
  | Some t =>
      if String.eqb t "" then true
      else match backend h "/api/auth/signup" ("Bearer " +:+ t) with
           | Resolved _ => false
           | Rejected err => status_is_401 err
           end
  | None => true
  end.

(** What one run of [fetchUserData] adds to the log, read off the host. *)
Definition fetch_events (h : Host) : list Event :=
  match cookies h !! "token" with
  | Some t =>
      if String.eqb t "" then [RouterPush "/login"]
      else
        HttpGet "/api/auth/signup" ("Bearer " +:+ t) ::
        match backend h "/api/auth/signup" ("Bearer " +:+ t) with
        | Resolved _ => []
        | Rejected err =>
            if status_is_401 err
            then [ToastError (JStr "Session is over please login again.");
                  RouterPush "/login"]
            else [ToastError (js_or (error_message err) (JStr "Data is not found"))]
        end
  | None => [RouterPush "/login"]
  end.

(** [n] successive renders of the component, as React may perform them. *)
Fixpoint renders (h : Host) (n : nat) : M (list Returned) :=
  match n with
  | O => mret []
  | S n' => r ← Profile h; rs ← renders h n'; mret (r :: rs)
  end.

(** The arrays of children in a tree, outermost first: the lists React asks
    keys for. *)
Fixpoint arrays (n : Node) : list (list Node) :=
  match n with
  | Val _ => []
  | Arr items => items :: List.flat_map arrays items
  | Elem _ _ _ children => List.flat_map arrays children
  end.

Definition elem_key (n : Node) : option string :=
  match n with
  | Elem _ _ key _ => key
  | _ => None
  end.

(** The keys of the presence and agreement flags. *)
Definition flag_keys : list string :=
  List.flat_map
    (fun g => List.map (fun f => snd (fst f))
                (List.filter (fun f => negb (is_text_kind (snd f))) (snd g)))
    display_groups.


Definition host_empty_token : Host :=
  example_host (Some "")
    (Resolved {| status := 200; data := JObj full_record |}).
Definition host_empty_body : Host :=
  example_host (Some "secret") (Resolved {| status := 200; data := JStr "" |}).
Definition host_html_body : Host :=
  example_host (Some "secret")
    (Resolved {| status := 200; data := JStr "<!DOCTYPE html>" |}).

(** ** Tactics *)



(** Running the effects of a computation. *)
Ltac run :=
  cbv [mbind M_bind mret M_ret setLoading setProfileData axios_get toast_error
       router_push emit bearer].

Lemma groups_of_profile_tree (profile : string -> JsVal) (header : JsVal) :
  groups_of (profile_tree profile header) = table_groups profile.
Proof.
  unfold table_groups, display_groups, groups_of. cbn.
  repeat (f_equal; try (destruct (truthy _); reflexivity)).
Qed.


(** A value the template literal cannot convert is an object or an array,
    and so is truthy. *)
Lemma unconvertible_truthy (v : JsVal) :
  unconvertible v = true -> truthy v = true.
Proof. destruct v; try discriminate; reflexivity. Qed.

(** The conversion throws exactly on the values [unconvertible] describes. *)
Lemma ToString_unconvertible (h : Host) :
  forall v, ToString h v = None <-> unconvertible v = true.
Proof.
  fix IH 1. intros v.
  destruct v as [| |b|x|s|items|fields]; cbn [ToString unconvertible];
    try (split; discriminate).
  - destruct b; split; discriminate.
  - rewrite fmap_None. revert items. fix IHl 1. intros [|item rest].
    + split; discriminate.
    + cbn [List.existsb]. rewrite orb_true_iff, <- (IH item), <- (IHl rest).
      destruct item as [| |b|x|s|items'|fields'];
        cbn [ToString];
        repeat match goal with
               | |- context [match ?o with Some _ => _ | None => _ end] =>
                   destruct o eqn:?
               end;
        split; try discriminate; try tauto; try (intros [H | H]; discriminate H);
        try (intros _; left; congruence); try (intros _; right; congruence);
        intuition congruence.
  - destruct (fields !! "toString") as [t|]; cbn; split;
      try discriminate; reflexivity.
Qed.

(** The page is built unless the name cannot be converted. *)
Lemma profile_view_Some (profile : string -> JsVal) (h : Host) :
  unconvertible (profile "name") = false ->
  exists header,
    header_child profile h = Some header /\
    profile_view profile h = Some (profile_tree profile header).
Proof.
  intros Hu. unfold profile_view, header_child.
  destruct (truthy (profile "name")); [|eexists; split; reflexivity].
  destruct (ToString h (profile "name")) as [s|] eqn:Hs.
  - eexists. split; reflexivity.
  - apply ToString_unconvertible in Hs. congruence.
Qed.

Lemma profile_view_None (profile : string -> JsVal) (h : Host) :
  profile_view profile h = None <-> unconvertible (profile "name") = true.
Proof.
  unfold profile_view. rewrite fmap_None. unfold header_child. split.
  - destruct (truthy (profile "name")); [|discriminate].
    rewrite fmap_None. apply ToString_unconvertible.
  - intros Hu. rewrite (unconvertible_truthy _ Hu). rewrite fmap_None.
    apply ToString_unconvertible, Hu.
Qed.

(** Every tree the view gives is the tree of some header. *)
Lemma profile_view_tree (profile : string -> JsVal) (h : Host) (root : Node) :
  profile_view profile h = Some root ->
  exists header,
    header_child profile h = Some header /\ root = profile_tree profile header.
Proof.
  unfold profile_view. intros H. apply fmap_Some in H.
  destruct H as (header & Hh & ->). exists header. split; [exact Hh | reflexivity].
Qed.

Lemma render_record_view (h : Host) (r : gmap string JsVal) :
  render_record h r = returned_of (profile_view (field r) h).
Proof. reflexivity. Qed.


(** Falsy values, among them the ones a text field can legitimately hold. *)
Example falsy_values :
  List.map truthy
    [JUndefined; JNull; JStr ""; JBool false; JNum (S754_zero false);
     JNum (S754_zero true); JNum S754_nan]
  = [false; false; false; false; false; false; false].
Proof. reflexivity. Qed.

Example truthy_values :
  List.map truthy
    [JStr "0"; JStr "false"; JBool true; JNum (S754_finite false 1 0);
     JArr []; JObj ∅]
  = [true; true; true; true; true; true].
Proof. reflexivity. Qed.




(** The placeholder on a record that lacks the email, has an empty phone and
    a numeric zero; the values present are shown as they are. *)
Example sparse_record_personal_details :
  exists root,
    render_record (host_without_token)
      sparse_record = Element root /\
    List.map shown_content (shown_in root "Personal Details" "Full Name")
      = [[Val (JStr "Asha Rao")]] /\
    List.map shown_content (shown_in root "Personal Details" "Phone")
      = [[Val (JStr "N/A")]] /\
    List.map shown_content (shown_in root "Experience" "Years of Experience")
      = [[Val (JStr "N/A")]].
Proof. eexists. split; [reflexivity|]. repeat split; vm_compute; reflexivity. Qed.









(** The agreement test is a truthiness test: any truthy value shows Yes. *)
Example agreement_truthy_string :
  (fun root => shown_in root "Agreements" "Penalty Clause Agreement")
    <$> profile_view (field {[ "penaltyClauseAgreement" := JStr "false" ]})
          host_without_token
  = Some [ {| shown_label := [Val (JStr "Penalty Clause Agreement")];
              shown_class := [flag_class true];
              shown_content := [Val (JStr "Yes")] |} ].
Proof. vm_compute. reflexivity. Qed.

(** The view reads the record only at the keys of the table. *)
Lemma profile_view_ext (p1 p2 : string -> JsVal) (h : Host) :
  (forall k, In k fixed_keys -> p1 k = p2 k) ->
  profile_view p1 h = profile_view p2 h.
Proof.
  intros H.
  assert (HF : Forall (fun k => p1 k = p2 k) fixed_keys)
    by (apply Forall_forall; intros k Hk; apply H, list_elem_of_In, Hk).
  clear H. unfold fixed_keys, display_groups in HF. cbn in HF.
  repeat match type of HF with
         | Forall _ (_ :: _) =>
             let E := fresh "E" in
             apply Forall_cons_1 in HF; destruct HF as [E HF]
         end.
  unfold profile_view, header_child, profile_tree, text_row, document_row,
    aadhaar_row, agreement_row.
  cbn [List.map fkey flabel].
  repeat match goal with E : p1 _ = p2 _ |- _ => rewrite E; clear E end.
  reflexivity.
Qed.

(** C9. Two records that agree on every field key of the display groups
    render the same tree, whatever other fields they hold. *)
Theorem render_ignores_unknown_fields (h : Host) (r1 r2 : gmap string JsVal) :
  (forall k, In k fixed_keys -> r1 !! k = r2 !! k) ->
  render_record h r1 = render_record h r2.
Proof.
  intros H. rewrite !render_record_view. f_equal.
  apply profile_view_ext. intros k Hk. unfold field. rewrite (H k Hk). reflexivity.
Qed.

Lemma render_ignores_unknown_fields_witness :
  render_record (host_without_token) full_record
  = render_record (host_without_token)
      (<["role" := JStr "admin"]> (delete "currentDate" full_record)).
Proof.
  apply (render_ignores_unknown_fields
           (host_without_token) full_record
           (<["role" := JStr "admin"]> (delete "currentDate" full_record))).
  intros k Hk. unfold fixed_keys, display_groups in Hk. cbn in Hk.
  repeat (destruct Hk as [<- | Hk]; [vm_compute; reflexivity|]).
  contradiction.
Defined.





Example header_without_name :
  header_of <$> profile_view (field (delete "name" full_record)) host_without_token
  = Some [Val (JStr "User Profile")].
Proof. vm_compute. reflexivity. Qed.

(** Names that are not strings, on the engine of the examples. *)
Example header_of_other_names :
  List.map
    (fun name =>
       header_of <$> profile_view (field {[ "name" := name ]}) host_without_token)
    [ JNum (S754_finite false 21 1);
      JNum (S754_finite true 3 (-1));
      JBool true;
      JObj {[ "first" := JStr "Asha" ]};
      JArr [JStr "Asha"; JNull; JNum (S754_finite false 1 (-1))];
      JArr [];
      JObj {[ "toString" := JStr "Asha" ]};
      JArr [JStr "Asha"; JObj {[ "toString" := JNull ]}] ]
  = [ Some [Val (JStr "42")];
      Some [Val (JStr "-1.5")];
      Some [Val (JStr "true")];
      Some [Val (JStr "[object Object]")];
      Some [Val (JStr "Asha,,0.5")];
      Some [Val (JStr "")];
      None;
      None ].
Proof. vm_compute. reflexivity. Qed.

(** ** Properties of the activation *)

(** C8. Once the fetch has completed without a record (the profile state is
    null and loading is false), the render displays the notification Profile
    is not found. and returns the identifier of that notification: what the
    component returns is the result of the notification call, not an element. *)
Theorem no_record_render_returns_toast (h : Host) (w : World) :
  profileData w = JNull ->
  loading w = false ->
  Profile h w
  = (Toast (ToastIdOf (JStr "Profile is not found.")),
     {| profileData := JNull; loading := false;
        log := log w ++ [ToastError (JStr "Profile is not found.")] |})
  /\ forall e, fst (Profile h w) <> Element e.
Proof.
  destruct w as [p l events]. cbn. intros -> ->.
  split; [reflexivity | discriminate].
Qed.

Lemma no_record_render_returns_toast_witness :
  Profile (host_without_token)
    {| profileData := JNull; loading := false; log := [RouterPush "/login"] |}
  = (Toast (ToastIdOf (JStr "Profile is not found.")),
     {| profileData := JNull; loading := false;
        log := [RouterPush "/login"; ToastError (JStr "Profile is not found.")] |})
  /\ forall e,
       fst (Profile (host_without_token)
              {| profileData := JNull; loading := false;
                 log := [RouterPush "/login"] |}) <> Element e.
Proof.
  apply (no_record_render_returns_toast
           (host_without_token)
           {| profileData := JNull; loading := false;
              log := [RouterPush "/login"] |});
    reflexivity.
Defined.

(** The same branch is taken for every falsy state, not only [null]. *)
Lemma falsy_record_render (h : Host) (w : World) :
  truthy (profileData w) = false ->
  loading w = false ->
  fst (Profile h w) = Toast (ToastIdOf (JStr "Profile is not found.")).
Proof. intros Hp Hl. unfold Profile. rewrite Hp, Hl. reflexivity. Qed.

(** While the fetch is pending the render is the loading indicator alone,
    and does nothing else. *)
Lemma loading_render (h : Host) (w : World) :
  loading w = true -> Profile h w = (Element loading_view, w).
Proof. intros Hl. unfold Profile. rewrite Hl. reflexivity. Qed.

(** [fetchUserData], branch by branch. *)
Lemma fetch_without_token (h : Host) (w : World) :
  truthy (Cookies_get h "token") = false ->
  fetchUserData h w
  = (tt, {| profileData := profileData w; loading := false;
            log := log w ++ [RouterPush "/login"] |}).
Proof. intros Ht. unfold fetchUserData. cbn. rewrite Ht. reflexivity. Qed.

Lemma token_truthy (h : Host) (t : string) :
  cookies h !! "token" = Some t -> t <> "" ->
  Cookies_get h "token" = JStr t /\ truthy (JStr t) = true.
Proof.
  intros Hc Hne. unfold Cookies_get. rewrite Hc. split; [reflexivity|].
  cbn. destruct (String.eqb_spec t ""); [contradiction | reflexivity].
Qed.

Lemma fetch_resolved (h : Host) (w : World) (t : string) (r : HttpResponse) :
  cookies h !! "token" = Some t -> t <> "" ->
  backend h "/api/auth/signup" ("Bearer " +:+ t) = Resolved r ->
  fetchUserData h w
  = (tt, {| profileData := data r; loading := false;
            log := log w ++ [HttpGet "/api/auth/signup" ("Bearer " +:+ t)] |}).
Proof.
  intros Hc Hne Hb. destruct (token_truthy h t Hc Hne) as [Hg Ht].
  unfold fetchUserData. rewrite Hg. cbn [negb]. rewrite Ht.
  run. rewrite Hb. reflexivity.
Qed.

Lemma fetch_rejected (h : Host) (w : World) (t : string) (err : AxiosError) :
  cookies h !! "token" = Some t -> t <> "" ->
  backend h "/api/auth/signup" ("Bearer " +:+ t) = Rejected err ->
  fetchUserData h w
  = (tt, {| profileData := profileData w; loading := false;
            log := log w ++
              HttpGet "/api/auth/signup" ("Bearer " +:+ t) ::
              (if status_is_401 err
               then [ToastError (JStr "Session is over please login again.");
                     RouterPush "/login"]
               else [ToastError (js_or (error_message err)
                                   (JStr "Data is not found"))]) |}).
Proof.
  intros Hc Hne Hb. destruct (token_truthy h t Hc Hne) as [Hg Ht].
  unfold fetchUserData. rewrite Hg. cbn [negb]. rewrite Ht.
  run. rewrite Hb.
  destruct (status_is_401 err); cbn; rewrite <- ?app_assoc; reflexivity.
Qed.

(** An activation is the first render, the fetch, and the render of the
    state the fetch leaves. *)
Lemma activate_unfold (h : Host) :
  activate h initial
  = (let w := snd (fetchUserData h initial) in
     ([Element loading_view; fst (Profile h w)], snd (Profile h w))).
Proof.
  unfold activate. cbv [mbind M_bind mret M_ret].
  change (Profile h initial) with (Element loading_view, initial).
  cbv beta iota.
  destruct (fetchUserData h initial) as [[] w]. cbn [snd].
  destruct (Profile h w). reflexivity.
Qed.

(** The fetch by itself raises no notification and sends no request when the
    credential is missing. *)
Lemma fetch_without_token_silent (h : Host) :
  cookies h !! "token" = None ->
  log (snd (fetchUserData h initial)) = [RouterPush "/login"].
Proof.
  intros Hc. rewrite fetch_without_token; [reflexivity|].
  unfold Cookies_get. rewrite Hc. reflexivity.
Qed.

(** C2 (the code departs from it). An activation with no stored credential
    redirects to the login path and sends no request, but it is not silent:
    the fetch leaves loading false and the record null, so the render that
    follows displays the notification Profile is not found. *)
Theorem missing_credential_activation (h : Host) :
  cookies h !! "token" = None ->
  activate h initial
  = ([Element loading_view; Toast (ToastIdOf (JStr "Profile is not found."))],
     {| profileData := JNull; loading := false;
        log := [RouterPush "/login"; ToastError (JStr "Profile is not found.")] |}).
Proof.
  intros Hc. rewrite activate_unfold, fetch_without_token.
  - reflexivity.
  - unfold Cookies_get. rewrite Hc. reflexivity.
Qed.

Lemma missing_credential_activation_witness :
  navigations (log (snd (activate host_without_token initial))) = ["/login"] /\
  requests (log (snd (activate host_without_token initial))) = [] /\
  notifications (log (snd (activate host_without_token initial)))
  = [JStr "Profile is not found."].
Proof.
  rewrite (missing_credential_activation host_without_token); [|reflexivity].
  repeat split.
Defined.

(** C3 (the code departs from it). An activation with a stored credential
    that the backend answers with status 401 displays the session
    notification and redirects to the login path, and then displays a second
    notification, Profile is not found., from the render that follows. *)
Theorem expired_credential_activation (h : Host) (t : string) (body : JsVal) :
  cookies h !! "token" = Some t ->
  t <> "" ->
  backend h "/api/auth/signup" ("Bearer " +:+ t)
  = Rejected {| response := Some {| status := 401; data := body |} |} ->
  activate h initial
  = ([Element loading_view; Toast (ToastIdOf (JStr "Profile is not found."))],
     {| profileData := JNull; loading := false;
        log := [ HttpGet "/api/auth/signup" ("Bearer " +:+ t);
                 ToastError (JStr "Session is over please login again.");
                 RouterPush "/login";
                 ToastError (JStr "Profile is not found.") ] |}).
Proof.
  intros Hc Hne Hb.
  rewrite activate_unfold, (fetch_rejected h initial t _ Hc Hne Hb).
  reflexivity.
Qed.

Lemma expired_credential_activation_witness :
  navigations (log (snd (activate host_expired initial))) = ["/login"] /\
  notifications (log (snd (activate host_expired initial)))
  = [JStr "Session is over please login again."; JStr "Profile is not found."].
Proof.
  rewrite (expired_credential_activation host_expired "secret" JNull);
    [| reflexivity | discriminate | reflexivity].
  repeat split.
Defined.

(** The message the code reads off a failure is the body's message field,
    [undefined] when there is none. *)
Lemma error_message_backend (err : AxiosError) :
  error_message err = default JUndefined (backend_message err).
Proof.
  unfold error_message, backend_message.
  destruct (response err) as [[st [| |b|x|s|items|fields]]|]; reflexivity.
Qed.

(** C4, as amended. A fetch that fails with a status other than 401, or with
    no response at all, displays a notification whose text is the body's
    message field when that field is present and truthy, and Data is not
    found otherwise; it does not redirect, and the render that follows takes
    the no-record branch. *)
Theorem other_failure_activation (h : Host) (t : string) (err : AxiosError) :
  cookies h !! "token" = Some t ->
  t <> "" ->
  backend h "/api/auth/signup" ("Bearer " +:+ t) = Rejected err ->
  (forall r, response err = Some r -> status r <> 401%Z) ->
  activate h initial
  = ([Element loading_view; Toast (ToastIdOf (JStr "Profile is not found."))],
     {| profileData := JNull; loading := false;
        log := [ HttpGet "/api/auth/signup" ("Bearer " +:+ t);
                 ToastError (failure_text err);
                 ToastError (JStr "Profile is not found.") ] |})
  /\ navigations (log (snd (activate h initial))) = [].
Proof.
  intros Hc Hne Hb Hs.
  assert (H401 : status_is_401 err = false).
  { unfold status_is_401. destruct (response err) as [r|] eqn:E; [|reflexivity].
    apply Z.eqb_neq, Hs. reflexivity. }
  assert (Htext : js_or (error_message err) (JStr "Data is not found")
                  = failure_text err).
  { rewrite error_message_backend. unfold failure_text, js_or.
    destruct (backend_message err) as [m|]; reflexivity. }
  rewrite activate_unfold, (fetch_rejected h initial t _ Hc Hne Hb), H401, Htext.
  split; reflexivity.
Qed.

Lemma other_failure_activation_witness :
  notifications (log (snd (activate host_server_error initial)))
  = [JStr "Server error"; JStr "Profile is not found."]
  /\ navigations (log (snd (activate host_server_error initial))) = [].
Proof.
  destruct (other_failure_activation host_server_error "secret" server_error)
    as [Ha Hn]; [reflexivity | discriminate | reflexivity | |].
  - intros r [= <-]. discriminate.
  - split; [rewrite Ha; reflexivity | exact Hn].
Defined.

(** A failure with no response takes the same path, with the fallback. *)
Example network_failure_activation :
  log (snd (activate host_offline initial))
  = [ HttpGet "/api/auth/signup" "Bearer secret";
      ToastError (JStr "Data is not found");
      ToastError (JStr "Profile is not found.") ].
Proof. vm_compute. reflexivity. Qed.

(** C4 as the specification words it fails: the body's message field is
    present and empty, and no notification has it as its text; the text
    displayed is the fallback. *)
Lemma empty_message_counterexample :
  status_is_401 empty_message_error = false /\
  backend_message empty_message_error = Some (JStr "") /\
  claimed_failure_text empty_message_error = JStr "" /\
  notifications (log (snd (activate host_empty_message initial)))
  = [JStr "Data is not found"; JStr "Profile is not found."] /\
  ~ In (claimed_failure_text empty_message_error)
       (notifications (log (snd (activate host_empty_message initial)))).
Proof.
  repeat split; try (vm_compute; reflexivity).
  vm_compute. intros [H | [H | H]]; [discriminate H | discriminate H | exact H].
Qed.

(** The same holds of any falsy message, such as the number 0. *)
Example zero_message_fallback :
  let err := {| response :=
                  Some {| status := 500;
                          data := JObj {[ "message" := JNum (S754_zero false) ]} |} |} in
  notifications
    (log (snd (activate (example_host (Some "secret") (Rejected err)) initial)))
  = [JStr "Data is not found"; JStr "Profile is not found."].
Proof. vm_compute. reflexivity. Qed.





(** A successful activation sends one request, with the bearer credential,
    and displays no notification. *)
Example successful_activation_log :
  log (snd (activate host_with_profile initial))
  = [HttpGet "/api/auth/signup" "Bearer secret"].
Proof. vm_compute. reflexivity. Qed.

(** ** Further properties of the fetch *)

Lemma requests_app (l1 l2 : list Event) :
  requests (l1 ++ l2) = (requests l1 ++ requests l2)%list.
Proof. apply List.flat_map_app. Qed.

Lemma navigations_app (l1 l2 : list Event) :
  navigations (l1 ++ l2) = (navigations l1 ++ navigations l2)%list.
Proof. apply List.flat_map_app. Qed.

Lemma notifications_app (l1 l2 : list Event) :
  notifications (l1 ++ l2) = (notifications l1 ++ notifications l2)%list.
Proof. apply List.flat_map_app. Qed.

(** The stored credential is missing, empty, or a non-empty string. *)
Lemma token_cases (h : Host) :
  cookies h !! "token" = None
  \/ cookies h !! "token" = Some ""
  \/ exists t, cookies h !! "token" = Some t /\ t <> "" /\ String.eqb t "" = false.
Proof.
  destruct (cookies h !! "token") as [t|]; [|left; reflexivity]. right.
  destruct (String.eqb_spec t "") as [-> | Hne]; [left; reflexivity|].
  right. exists t. repeat split; [exact Hne|].
  destruct (String.eqb_spec t ""); [contradiction | reflexivity].
Qed.

(** One run of [fetchUserData], from any state. *)
Lemma fetch_run (h : Host) (w : World) :
  fetchUserData h w
  = (tt, {| profileData := default (profileData w) (fetched h);
            loading := false;
            log := log w ++ fetch_events h |}).
Proof.
  unfold fetched, fetch_events.
  destruct (token_cases h) as [Hc | [Hc | (t & Hc & Hne & He)]].
  - rewrite fetch_without_token; [rewrite Hc; reflexivity|].
    unfold Cookies_get. rewrite Hc. reflexivity.
  - rewrite fetch_without_token; [rewrite Hc; reflexivity|].
    unfold Cookies_get. rewrite Hc. reflexivity.
  - rewrite Hc, He.
    destruct (backend h "/api/auth/signup" ("Bearer " +:+ t)) as [r | err] eqn:Hb.
    + rewrite (fetch_resolved h w t r Hc Hne Hb). reflexivity.
    + rewrite (fetch_rejected h w t err Hc Hne Hb). reflexivity.
Qed.

(** X1. Whatever the host answers and whatever state it starts from,
    [fetchUserData] ends with loading false: the [finally] block runs on the
    redirect, on success and on every failure. *)
Theorem fetch_always_clears_loading (h : Host) (w : World) :
  loading (snd (fetchUserData h w)) = false.
Proof. rewrite fetch_run. reflexivity. Qed.

(** X2. One run of [fetchUserData] sends at most one request.  A request
    goes to /api/auth/signup and carries the stored credential as its
    bearer; none is sent without a non-empty credential, and exactly one is
    sent with one. *)
Theorem fetch_requests (h : Host) (w : World) :
  exists sent,
    requests (log (snd (fetchUserData h w))) = (requests (log w) ++ sent)%list /\
    length sent <= 1 /\
    (forall url auth, In (url, auth) sent ->
       url = "/api/auth/signup" /\
       exists t, cookies h !! "token" = Some t /\ t <> "" /\ auth = "Bearer " +:+ t) /\
    (forall t, cookies h !! "token" = Some t -> t <> "" ->
       sent = [("/api/auth/signup", "Bearer " +:+ t)]).
Proof.
  rewrite fetch_run. cbn [snd log]. rewrite requests_app.
  exists (requests (fetch_events h)). split; [reflexivity|].
  unfold fetch_events.
  destruct (token_cases h) as [Hc | [Hc | (t & Hc & Hne & He)]].
  - rewrite Hc. cbn. repeat split; try lia; try contradiction. discriminate.
  - rewrite Hc. cbn. repeat split; try lia; try contradiction.
    intros t [= <-] Hne. contradiction.
  - rewrite Hc, He.
    assert (Hs : requests
              (HttpGet "/api/auth/signup" ("Bearer " +:+ t)
               :: match backend h "/api/auth/signup" ("Bearer " +:+ t) with
                  | Resolved _ => []
                  | Rejected err =>
                      if status_is_401 err
                      then [ToastError (JStr "Session is over please login again.");
                            RouterPush "/login"]
                      else [ToastError (js_or (error_message err)
                                          (JStr "Data is not found"))]
                  end)
            = [("/api/auth/signup", "Bearer " +:+ t)]).
    { destruct (backend h "/api/auth/signup" ("Bearer " +:+ t)) as [r | err];
        [reflexivity|]. destruct (status_is_401 err); reflexivity. }
    rewrite Hs. repeat split.
    + cbn. lia.
    + destruct H as [H | []]. congruence.
    + destruct H as [H | []]. exists t. repeat split; [exact Hne | congruence].
    + intros t' [= <-] _. reflexivity.
Qed.

(** X3. One run of [fetchUserData] navigates at most once, and only to
    /login; it does so exactly when the session is unusable: the credential
    is missing or empty, or the backend answers 401. *)
Theorem fetch_navigations (h : Host) (w : World) :
  navigations (log (snd (fetchUserData h w)))
  = (navigations (log w) ++ (if session_invalid h then ["/login"] else []))%list.
Proof.
  rewrite fetch_run. cbn [snd log]. rewrite navigations_app. f_equal.
  unfold fetch_events, session_invalid.
  destruct (cookies h !! "token") as [t|]; [|reflexivity].
  destruct (String.eqb t ""); [reflexivity|].
  destruct (backend h "/api/auth/signup" ("Bearer " +:+ t)) as [r | err];
    [reflexivity|].
  destruct (status_is_401 err); reflexivity.
Qed.

(** X4. A stored credential that is the empty string is treated as a missing
    one: the activation redirects to /login without sending a request. *)
Theorem empty_credential_activation (h : Host) :
  cookies h !! "token" = Some "" ->
  navigations (log (snd (activate h initial))) = ["/login"] /\
  requests (log (snd (activate h initial))) = [] /\
  profileData (snd (activate h initial)) = JNull.
Proof.
  intros Hc. rewrite activate_unfold, fetch_without_token.
  - repeat split.
  - unfold Cookies_get. rewrite Hc. reflexivity.
Qed.

Lemma empty_credential_activation_witness :
  navigations (log (snd (activate host_empty_token initial))) = ["/login"] /\
  requests (log (snd (activate host_empty_token initial))) = [] /\
  profileData (snd (activate host_empty_token initial)) = JNull.
Proof. apply (empty_credential_activation host_empty_token). reflexivity. Defined.

(** X5. [fetchUserData] replaces the record only when the request resolves,
    and then by the response body whatever it is; on a redirect or a failure
    the record the state held before is kept. *)
Theorem fetch_record (h : Host) (w : World) :
  profileData (snd (fetchUserData h w)) = default (profileData w) (fetched h).
Proof. rewrite fetch_run. reflexivity. Qed.

(** X6. A fetch that does not resolve, run over a state that already holds
    a truthy record, does not clear it: the render that follows is the render
    of that record. *)
Theorem failed_refetch_keeps_page (h : Host) (w : World) :
  fetched h = None ->
  truthy (profileData w) = true ->
  fst (Profile h (snd (fetchUserData h w)))
  = returned_of (profile_view (js_get_opt (profileData w)) h).
Proof.
  intros Hf Ht. rewrite fetch_run, Hf. cbn [snd].
  change (default (profileData w) None) with (profileData w).
  unfold Profile. cbn [loading profileData]. rewrite Ht. cbn [negb].
  destruct (profileData w) as [| |b|x|s|items|fields]; try discriminate Ht;
    reflexivity.
Qed.

Lemma failed_refetch_keeps_page_witness :
  fst (Profile host_offline
         (snd (fetchUserData host_offline
                 {| profileData := JObj full_record; loading := false;
                    log := [] |})))
  = returned_of (profile_view (js_get_opt (JObj full_record)) host_offline).
Proof.
  apply (failed_refetch_keeps_page host_offline
           {| profileData := JObj full_record; loading := false; log := [] |});
    reflexivity.
Defined.

(** ** Further properties of the activation and of the render *)

(** An activation, read off the host. *)
Lemma activate_run (h : Host) :
  activate h initial
  = ([Element loading_view;
      fst (Profile h {| profileData := default JNull (fetched h);
                        loading := false; log := fetch_events h |})],
     snd (Profile h {| profileData := default JNull (fetched h);
                       loading := false; log := fetch_events h |})).
Proof. rewrite activate_unfold, fetch_run. reflexivity. Qed.

(** The render of a loaded state that holds a truthy value. *)
Lemma Profile_truthy (h : Host) (w : World) :
  loading w = false ->
  truthy (profileData w) = true ->
  Profile h w = (returned_of (profile_view (js_get_opt (profileData w)) h), w).
Proof.
  intros Hl Ht. unfold Profile. rewrite Hl, Ht. cbn [negb].
  destruct (profileData w) as [| |b|x|s|items|fields]; try discriminate Ht;
    reflexivity.
Qed.

(** The render of a loaded state that holds a falsy value. *)
Lemma Profile_falsy (h : Host) (w : World) :
  loading w = false ->
  truthy (profileData w) = false ->
  Profile h w
  = (Toast (ToastIdOf (JStr "Profile is not found.")),
     {| profileData := profileData w; loading := false;
        log := log w ++ [ToastError (JStr "Profile is not found.")] |}).
Proof.
  intros Hl Ht. unfold Profile. rewrite Hl, Ht. cbn [negb]. run.
  rewrite Hl. reflexivity.
Qed.

(** What the render after a fetch adds to the log: nothing, or one
    notification. *)
Lemma activate_log (h : Host) :
  log (snd (activate h initial))
  = (fetch_events h
     ++ (if truthy (default JNull (fetched h)) then []
         else [ToastError (JStr "Profile is not found.")]))%list.
Proof.
  rewrite activate_run. cbn [snd].
  destruct (truthy (default JNull (fetched h))) eqn:Ht.
  - rewrite Profile_truthy by (cbn; auto). cbn [snd log].
    rewrite app_nil_r. reflexivity.
  - rewrite Profile_falsy by (cbn; auto). reflexivity.
Qed.

(** The events of a fetch that resolved hold no notification and no
    navigation. *)
Lemma fetch_events_resolved (h : Host) (d : JsVal) :
  fetched h = Some d ->
  notifications (fetch_events h) = [] /\ navigations (fetch_events h) = [] /\
  exists t, cookies h !! "token" = Some t /\ t <> "" /\
            fetch_events h = [HttpGet "/api/auth/signup" ("Bearer " +:+ t)].
Proof.
  unfold fetched, fetch_events.
  destruct (cookies h !! "token") as [t|]; [|discriminate].
  destruct (String.eqb_spec t "") as [-> | Hne]; [discriminate|].
  destruct (backend h "/api/auth/signup" ("Bearer " +:+ t)) as [r | err];
    [|discriminate].
  intros _. repeat split. exists t. repeat split. exact Hne.
Qed.

(** X7. When the request resolves with a truthy body, the activation sends
    one request, displays no notification and does not navigate; its second
    render builds the profile page from that body, and throws instead exactly
    when the body's name cannot be converted to a string. *)
Theorem resolved_activation_shows_page (h : Host) (d : JsVal) :
  fetched h = Some d ->
  truthy d = true ->
  fst (activate h initial)
  = [Element loading_view; returned_of (profile_view (js_get_opt d) h)] /\
  (unconvertible (js_get_opt d "name") = false ->
   exists header,
     header_child (js_get_opt d) h = Some header /\
     fst (activate h initial)
     = [Element loading_view; Element (profile_tree (js_get_opt d) header)]) /\
  (unconvertible (js_get_opt d "name") = true ->
   fst (activate h initial) = [Element loading_view; Thrown]) /\
  notifications (log (snd (activate h initial))) = [] /\
  navigations (log (snd (activate h initial))) = [] /\
  length (requests (log (snd (activate h initial)))) = 1.
Proof.
  intros Hf Ht. rewrite activate_run, Hf.
  change (default JNull (Some d)) with d.
  rewrite Profile_truthy by (cbn; auto). cbn [fst snd log profileData].
  destruct (fetch_events_resolved h d Hf) as (Hn & Hv & t & _ & _ & He).
  split; [reflexivity|]. split; [|split].
  - intros Hu. destruct (profile_view_Some (js_get_opt d) h Hu) as (header & Hh & Hp).
    exists header. split; [exact Hh|]. rewrite Hp. reflexivity.
  - intros Hu. apply (profile_view_None (js_get_opt d) h) in Hu. rewrite Hu.
    reflexivity.
  - repeat split; [exact Hn | exact Hv |]. rewrite He. reflexivity.
Qed.

Lemma resolved_activation_shows_page_witness :
  fst (activate host_crashing initial) = [Element loading_view; Thrown] /\
  notifications (log (snd (activate host_crashing initial))) = [] /\
  navigations (log (snd (activate host_crashing initial))) = [] /\
  length (requests (log (snd (activate host_crashing initial)))) = 1.
Proof.
  destruct (resolved_activation_shows_page host_crashing (JObj crashing_record))
    as (_ & _ & Ht & Hn & Hv & Hr); [reflexivity | reflexivity |].
  split; [apply Ht; reflexivity|]. repeat split; assumption.
Defined.

(** X8. When the request resolves with a falsy body (an empty body, null,
    false, 0), the success is displayed as a failure: the render returns the
    notification Profile is not found. and the page shows no record; the
    activation does not navigate. *)
Theorem resolved_falsy_body_activation (h : Host) (d : JsVal) :
  fetched h = Some d ->
  truthy d = false ->
  fst (activate h initial)
  = [Element loading_view; Toast (ToastIdOf (JStr "Profile is not found."))] /\
  notifications (log (snd (activate h initial))) = [JStr "Profile is not found."] /\
  navigations (log (snd (activate h initial))) = [] /\
  profileData (snd (activate h initial)) = d.
Proof.
  intros Hf Ht. rewrite activate_run, Hf. cbn [default].
  rewrite Profile_falsy by (cbn; auto). cbn [fst snd log profileData].
  destruct (fetch_events_resolved h d Hf) as (Hn & Hv & _).
  rewrite notifications_app, navigations_app, Hn, Hv. repeat split.
Qed.

Lemma resolved_falsy_body_activation_witness :
  fst (activate host_empty_body initial)
  = [Element loading_view; Toast (ToastIdOf (JStr "Profile is not found."))] /\
  notifications (log (snd (activate host_empty_body initial)))
  = [JStr "Profile is not found."] /\
  navigations (log (snd (activate host_empty_body initial))) = [] /\
  profileData (snd (activate host_empty_body initial)) = JStr "".
Proof.
  apply (resolved_falsy_body_activation host_empty_body (JStr "")); reflexivity.
Defined.

(** X9. An activation displays no notification exactly when its request
    resolved with a truthy body; in every other case the last notification
    is Profile is not found., raised by the render. *)
Theorem activation_silent_iff (h : Host) :
  (notifications (log (snd (activate h initial))) = []
   <-> exists d, fetched h = Some d /\ truthy d = true) /\
  (notifications (log (snd (activate h initial))) <> [] ->
   last (notifications (log (snd (activate h initial))))
   = Some (JStr "Profile is not found.")).
Proof.
  rewrite activate_log, notifications_app.
  destruct (fetched h) as [d|] eqn:Hf.
  - change (default JNull (Some d)) with d. destruct (truthy d) eqn:Ht.
    + destruct (fetch_events_resolved h d Hf) as (Hn & _). rewrite Hn. split.
      * split; [intros _; exists d; auto | reflexivity].
      * intros Hne. contradiction.
    + cbn [notifications List.flat_map app]. split.
      * split; [intros E; destruct (notifications (fetch_events h)); discriminate E|].
        intros (v & [= <-] & Hv). congruence.
      * intros _. apply last_snoc.
  - change (default JNull None) with JNull.
    cbn [truthy notifications List.flat_map app]. split.
    + split; [intros E; destruct (notifications (fetch_events h)); discriminate E|].
      intros (v & Hv & _). discriminate Hv.
    + intros _. apply last_snoc.
Qed.

(** X10. A body that is truthy but not an object (a string such as an HTML
    page, a number, true, an array) is displayed like an empty record: the
    same tree as for the record without fields, with the header User Profile. *)
Theorem non_object_body_as_empty_record (h : Host) (d : JsVal) (l : list Event) :
  truthy d = true ->
  (forall fields, d <> JObj fields) ->
  fst (Profile h {| profileData := d; loading := false; log := l |})
  = render_record h ∅ /\
  exists root,
    render_record h ∅ = Element root /\
    header_of root = [Val (JStr "User Profile")] /\
    groups_of root = table_groups (fun _ => JUndefined).
Proof.
  intros Ht Hobj. split.
  - rewrite Profile_truthy by (cbn; auto). cbn [fst profileData].
    rewrite render_record_view. f_equal. apply profile_view_ext. intros k _.
    destruct d as [| |b|x|s|items|fields]; try discriminate Ht; try reflexivity.
    exfalso. apply (Hobj fields). reflexivity.
  - exists (profile_tree (field ∅) (JStr "User Profile")).
    split; [reflexivity|]. split; [reflexivity|].
    rewrite groups_of_profile_tree. reflexivity.
Qed.

Lemma non_object_body_as_empty_record_witness :
  fst (Profile host_html_body
         {| profileData := JStr "<!DOCTYPE html>"; loading := false; log := [] |})
  = render_record host_html_body ∅ /\
  exists root,
    render_record host_html_body ∅ = Element root /\
    header_of root = [Val (JStr "User Profile")] /\
    groups_of root = table_groups (fun _ => JUndefined).
Proof.
  apply (non_object_body_as_empty_record host_html_body (JStr "<!DOCTYPE html>") []).
  - reflexivity.
  - discriminate.
Defined.

(** X11. A render never sends a request, never navigates and never changes
    the record or the loading flag.  It displays a notification, Profile is
    not found., exactly when loading is false and the record is falsy. *)
Theorem render_effects (h : Host) (w : World) :
  profileData (snd (Profile h w)) = profileData w /\
  loading (snd (Profile h w)) = loading w /\
  requests (log (snd (Profile h w))) = requests (log w) /\
  navigations (log (snd (Profile h w))) = navigations (log w) /\
  notifications (log (snd (Profile h w)))
  = (notifications (log w)
     ++ (if loading w || truthy (profileData w) then []
         else [JStr "Profile is not found."]))%list.
Proof.
  destruct (loading w) eqn:Hl.
  - rewrite loading_render by exact Hl. cbn [snd orb].
    rewrite app_nil_r. repeat split; exact Hl.
  - destruct (truthy (profileData w)) eqn:Ht.
    + rewrite Profile_truthy by assumption. cbn [snd orb].
      rewrite app_nil_r. repeat split; exact Hl.
    + rewrite Profile_falsy by assumption. cbn [snd orb profileData loading log].
      rewrite requests_app, navigations_app, notifications_app. cbn.
      rewrite !app_nil_r. repeat split.
Qed.

(** X12. Every render of a loaded page without a record displays the
    notification again: [n] renders add [n] notifications. *)
Theorem rerender_notifications (h : Host) (n : nat) (w : World) :
  loading w = false ->
  truthy (profileData w) = false ->
  notifications (log (snd (renders h n w)))
  = (notifications (log w) ++ replicate n (JStr "Profile is not found."))%list.
Proof.
  revert w. induction n as [|n IH]; intros w Hl Ht.
  - cbn. rewrite app_nil_r. reflexivity.
  - cbn [renders]. cbv [mbind M_bind mret M_ret].
    rewrite Profile_falsy by assumption.
    specialize (IH {| profileData := profileData w; loading := false;
                      log := log w ++ [ToastError (JStr "Profile is not found.")] |}
                   eq_refl Ht).
    destruct (renders h n _) as [rs w']. cbn [snd] in IH |- *.
    rewrite IH. cbn [log]. rewrite notifications_app. cbn.
    rewrite <- app_assoc. reflexivity.
Qed.

Lemma rerender_notifications_witness :
  notifications
    (log (snd (renders host_without_token 3
                 {| profileData := JNull; loading := false; log := [] |})))
  = [JStr "Profile is not found."; JStr "Profile is not found.";
     JStr "Profile is not found."].
Proof.
  apply (rerender_notifications host_without_token 3
           {| profileData := JNull; loading := false; log := [] |});
    reflexivity.
Defined.

(** X13. Rendering a loaded state that holds a truthy record is idempotent:
    any number of renders return the same outcome, the same tree or the same
    TypeError, and leave the state and the log as they were. *)
Theorem rerender_page (h : Host) (n : nat) (w : World) :
  loading w = false ->
  truthy (profileData w) = true ->
  renders h n w
  = (replicate n (returned_of (profile_view (js_get_opt (profileData w)) h)), w).
Proof.
  intros Hl Ht. induction n as [|n IH]; [reflexivity|].
  cbn [renders]. cbv [mbind M_bind mret M_ret].
  rewrite Profile_truthy by assumption. rewrite IH. reflexivity.
Qed.

Lemma rerender_page_witness :
  renders host_with_profile 2
    {| profileData := JObj full_record; loading := false; log := [] |}
  = ([returned_of (profile_view (js_get_opt (JObj full_record)) host_with_profile);
      returned_of (profile_view (js_get_opt (JObj full_record)) host_with_profile)],
     {| profileData := JObj full_record; loading := false; log := [] |}).
Proof.
  apply (rerender_page host_with_profile 2
           {| profileData := JObj full_record; loading := false; log := [] |});
    reflexivity.
Defined.

(** ** Further properties of the view *)




(** X16. Every page the view builds has six arrays of rows; in each of them
    every row has a key and no two rows share a key, whatever the record
    holds. *)
Theorem row_keys_unique (profile : string -> JsVal) (h : Host) (root : Node) :
  profile_view profile h = Some root ->
  length (arrays root) = 6 /\
  Forall (fun keys => Forall is_Some keys /\ NoDup keys)
    (List.map (List.map elem_key) (arrays root)).
Proof.
  intros Hv. destruct (profile_view_tree profile h root Hv) as (header & _ & ->).
  split; [reflexivity|].
  let keys := eval cbv in
    (List.map (List.map elem_key) (arrays (profile_tree profile header))) in
  change (List.map (List.map elem_key) (arrays (profile_tree profile header)))
    with keys.
  match goal with |- ?P => apply (@bool_decide_unpack P _) end.
  vm_compute. exact I.
Qed.

Lemma row_keys_unique_witness :
  length (arrays (profile_tree (field full_record) (JStr "Asha Rao"))) = 6 /\
  Forall (fun keys => Forall is_Some keys /\ NoDup keys)
    (List.map (List.map elem_key)
       (arrays (profile_tree (field full_record) (JStr "Asha Rao")))).
Proof.
  apply (row_keys_unique (field full_record) host_without_token
           (profile_tree (field full_record) (JStr "Asha Rao"))).
  reflexivity.
Defined.







(** The view reads a flag only through its truthiness. *)
Lemma profile_view_flags (p1 p2 : string -> JsVal) (h : Host) :
  (forall k, In k text_keys -> p1 k = p2 k) ->
  (forall k, In k flag_keys -> truthy (p1 k) = truthy (p2 k)) ->
  profile_view p1 h = profile_view p2 h.
Proof.
  intros Ht Hf.
  assert (HT : Forall (fun k => p1 k = p2 k) text_keys)
    by (apply Forall_forall; intros k Hk; apply Ht, list_elem_of_In, Hk).
  assert (HF : Forall (fun k => truthy (p1 k) = truthy (p2 k)) flag_keys)
    by (apply Forall_forall; intros k Hk; apply Hf, list_elem_of_In, Hk).
  clear Ht Hf. unfold text_keys, display_groups in HT.
  unfold flag_keys, display_groups in HF. cbn in HT, HF.
  repeat match type of HT with
         | Forall _ (_ :: _) =>
             let E := fresh "E" in
             apply Forall_cons_1 in HT; destruct HT as [E HT]
         end.
  repeat match type of HF with
         | Forall _ (_ :: _) =>
             let E := fresh "F" in
             apply Forall_cons_1 in HF; destruct HF as [E HF]
         end.
  unfold profile_view, header_child, profile_tree, text_row, document_row,
    aadhaar_row, agreement_row.
  cbn [List.map fkey flabel].
  repeat match goal with E : truthy (p1 _) = truthy (p2 _) |- _ =>
           rewrite E; clear E end.
  repeat match goal with E : p1 _ = p2 _ |- _ => rewrite E; clear E end.
  reflexivity.
Qed.

(** X20. The page shows of a document or agreement field only whether it is
    truthy: two records that agree on the text fields, and on the truthiness
    of the five flag fields, render the same tree. *)
Theorem flags_shown_by_truthiness (h : Host) (r1 r2 : gmap string JsVal) :
  (forall k, In k text_keys -> r1 !! k = r2 !! k) ->
  (forall k, In k flag_keys -> truthy (field r1 k) = truthy (field r2 k)) ->
  render_record h r1 = render_record h r2.
Proof.
  intros Ht Hf. rewrite !render_record_view. f_equal.
  apply profile_view_flags; [|exact Hf].
  intros k Hk. unfold field. rewrite (Ht k Hk). reflexivity.
Qed.

Lemma flags_shown_by_truthiness_witness :
  render_record host_without_token full_record
  = render_record host_without_token
      (<["photo" := JObj ∅]> (<["covidDeclarationAgreement" := JStr "yes"]> full_record)).
Proof.
  apply (flags_shown_by_truthiness host_without_token full_record
           (<["photo" := JObj ∅]>
              (<["covidDeclarationAgreement" := JStr "yes"]> full_record))).
  - intros k Hk. unfold text_keys, display_groups in Hk. cbn in Hk.
    repeat (destruct Hk as [<- | Hk]; [vm_compute; reflexivity|]).
    contradiction.
  - intros k Hk. unfold flag_keys, display_groups in Hk. cbn in Hk.
    repeat (destruct Hk as [<- | Hk]; [vm_compute; reflexivity|]).
    contradiction.
Defined.



(** X22. One activation sends at most one request, navigates at most once
    and displays at most two notifications. *)
Theorem activation_bounds (h : Host) :
  length (requests (log (snd (activate h initial)))) <= 1 /\
  length (navigations (log (snd (activate h initial)))) <= 1 /\
  length (notifications (log (snd (activate h initial)))) <= 2.
Proof.
  rewrite activate_log, requests_app, navigations_app, notifications_app.
  rewrite !length_app.
  assert (Hr : length (requests (fetch_events h)) <= 1
               /\ length (navigations (fetch_events h)) <= 1
               /\ length (notifications (fetch_events h)) <= 1).
  { unfold fetch_events.
    destruct (cookies h !! "token") as [t|]; [|cbn; lia].
    destruct (String.eqb t ""); [cbn; lia|].
    destruct (backend h "/api/auth/signup" ("Bearer " +:+ t)) as [r | err];
      [cbn; lia|].
    destruct (status_is_401 err); cbn; lia. }
  destruct (truthy (default JNull (fetched h))); cbn; lia.
Qed.

(** X23. A render throws exactly when the state is loaded and the name of
    the value it holds cannot be converted to a string: an object with an
    own toString property, or an array that holds one.  A null or undefined
    state never reaches the property accesses, being falsy. *)
Theorem Profile_throws_iff (h : Host) (w : World) :
  fst (Profile h w) = Thrown
  <-> loading w = false /\
      unconvertible (js_get_opt (profileData w) "name") = true.
Proof.
  destruct (loading w) eqn:Hl.
  - rewrite loading_render by exact Hl. split; [discriminate|].
    intros [H _]. discriminate H.
  - destruct (truthy (profileData w)) eqn:Ht.
    + rewrite Profile_truthy by assumption. cbn [fst].
      rewrite <- (profile_view_None (js_get_opt (profileData w)) h).
      destruct (profile_view (js_get_opt (profileData w)) h); cbn; split;
        try discriminate; try tauto.
      intros [_ H]. discriminate H.
    + rewrite Profile_falsy by assumption. cbn [fst]. split; [discriminate|].
      intros [_ Hu]. exfalso.
      destruct (profileData w) as [| |b|x|s|items|fields];
        try discriminate Ht; discriminate Hu.
Qed.

(** The conversion of numbers to strings, on known values: 1, -1.5, 0.1,
    0.1 + 0.2, 1/3, 123.456, 2^53, 1e20, 1e21, 1e23, 0.000001, 1e-7, the
    largest number and the smallest one. *)
Example ecma_Number_toString_values :
  List.map ecma_Number_toString
    [ S754_finite false 1 0;
      S754_finite true 3 (-1);
      S754_finite false 3602879701896397 (-55);
      S754_finite false 1351079888211149 (-52);
      S754_finite false 6004799503160661 (-54);
      S754_finite false 8687443681197687 (-46);
      S754_finite false 1 53;
      S754_finite false 95367431640625 20;
      S754_finite false 476837158203125 21;
      S754_finite false 2980232238769531 25;
      S754_finite false 4722366482869645 (-72);
      S754_finite false 944473296573929 (-73);
      S754_finite false 9007199254740991 971;
      S754_finite false 1 (-1074);
      S754_zero true; S754_nan; S754_infinity true ]
  = [ "1"; "-1.5"; "0.1"; "0.30000000000000004"; "0.3333333333333333";
      "123.456"; "9007199254740992"; "100000000000000000000"; "1e+21";
      "1e+23"; "0.000001"; "1e-7"; "1.7976931348623157e+308"; "5e-324";
      "0"; "NaN"; "-Infinity" ].
Proof. vm_compute. reflexivity. Qed.
